(** * PptUploadRow: the upload form of [src/ppt/src/PptUploadRow.tsx]

    The component keeps eight [useState] cells and has two asynchronous
    handlers, [handleFileChange] and [handleStart].  The handlers are
    embedded as finite resumptions: a handler is a sequence of setter
    calls, interrupted by the [await]s of the source, each of which is
    answered by the environment (the browser's file reader, JSZip, the
    network).  The cells become one record, the setters become actions
    on it, and the JSX becomes a function from the cells to a view. *)

From Stdlib Require Import ZArith NArith String Ascii List Bool Lia.
From Stdlib Require Import DecimalString.
From stdpp Require Import base option list strings gmap fin_maps.

Local Open Scope string_scope.

(** ** JavaScript strings

    Strings are sequences of code units.  The handlers only compare
    against ASCII literals, so a code unit is an [ascii]; [toLowerCase]
    maps [A]..[Z] to [a]..[z] and leaves every other code unit alone
    (no code unit outside ASCII lower-cases to one of [.], [p], [t],
    [x], so the suffix tests below are not affected). *)
Module Js.

Definition lowerChar (c : ascii) : ascii :=
  let n := nat_of_ascii c in
  if (65 <=? n)%nat && (n <=? 90)%nat then ascii_of_nat (n + 32) else c.

Fixpoint toLowerCase (s : string) : string :=
  match s with
  | EmptyString => EmptyString
  | String c t => String (lowerChar c) (toLowerCase t)
  end.

(** [s.startsWith(p)] *)
Definition startsWith (s p : string) : bool := String.prefix p s.

Fixpoint dropStr (n : nat) (s : string) : string :=
  match n, s with
  | O, _ => s
  | S n', String _ t => dropStr n' t
  | S _, EmptyString => EmptyString
  end.

(** [s.endsWith(p)]: with [start = len(s) - len(p)], false when
    [start < 0], else whether the code units of [s] from [start] on are
    those of [p]. *)
Definition endsWith (s p : string) : bool :=
  (String.length p <=? String.length s)%nat
  && String.eqb (dropStr (String.length s - String.length p) s) p.

(** Truthiness of a string, and of a nullable string. *)
Definition truthyStr (s : string) : bool := negb (String.eqb s "").

Definition truthy (o : option string) : bool :=
  match o with
  | Some s => truthyStr s
  | None => false
  end.

(** [a || b] on strings. *)
Definition orElse (o : option string) (d : string) : string :=
  match o with
  | Some s => if truthyStr s then s else d
  | None => d
  end.

(** [n || 0] on a nullable number. *)
Definition orZero (o : option Z) : Z :=
  match o with
  | Some n => if (n =? 0)%Z then 0%Z else n
  | None => 0%Z
  end.

(** The decimal digits of a natural number, as [toFixed] writes the
    integer it has picked. *)
Definition decimal (n : N) : string := NilZero.string_of_uint (N.to_uint n).

(** [(bytes / 1024).toFixed(2)].  [bytes] is an integer below [2^53],
    so the quotient is exact in a double, and [toFixed] picks the
    integer [n] with [n / 100] nearest to it, the larger one on a tie:
    [n = floor ((200 * bytes + 1024) / 2048)]; it writes the digits of
    [n] with a point before the last two. *)
Definition twoDigits (n : N) : string :=
  if (n <? 10)%N then "0" ++ decimal n else decimal n.

Definition kilobytesToFixed2 (bytes : N) : string :=
  let n := ((200 * bytes + 1024) / 2048)%N in
  decimal (n / 100) ++ "." ++ twoDigits (n mod 100)%N.

(** A thrown value; [message] is what [err.message] reads ([None] when
    the property is undefined). *)
Record Error := { message : option string }.

(** How a promise settles. *)
Inductive Settled (A : Type) : Type :=
| Resolved (a : A)
| Rejected (err : Error).
Arguments Resolved {A} a.
Arguments Rejected {A} err.

(** [xs?.[0]] *)
Definition optionalFirst {A} (xs : option (list A)) : option A :=
  match xs with
  | Some (x :: _) => Some x
  | _ => None
  end.

End Js.

(** ** Data *)

Record SelectOption := { value : string; label : string }.

Definition reportOptions : list SelectOption :=
  [ {| value := "Report1"; label := "Report1" |};
    {| value := "Report2"; label := "Report2" |};
    {| value := "Report3"; label := "Report3" |};
    {| value := "Report4"; label := "Report4" |} ].

Definition multiOptions : list SelectOption :=
  [ {| value := "format"; label := "Format" |};
    {| value := "language"; label := "Language" |};
    {| value := "narrative"; label := "Narrative" |} ].

(** The browser's [File]: its name, declared content type and size in
    bytes.  Its content is what [arrayBuffer()] settles to. *)
Module File.
Record t := { name : string; type : string; size : N }.
End File.

(** [slideCount: number | "Unknown" | null] *)
Inductive SlideCount :=
| SlideNumber (n : nat)
| SlideUnknown
| SlideNull.

Module FileInfo.
Record t := { name : string; type : string; size : string; slideCount : SlideCount }.
End FileInfo.

(** What [JSZip.loadAsync] resolves to: [files] maps each entry's path
    to its entry object, of which only the folder flag is kept. *)
Record ZipObject := { dir : bool }.
Record JSZip := { files : gmap string ZipObject }.

(** [Object.keys(o)].  JavaScript lists the keys in insertion order and
    the map in its own; the handler only counts them. *)
Definition Object_keys {V} (o : gmap string V) : list string := (map_to_list o).*1.

(** The request of [handleStart]. *)
Inductive FormValue :=
| FormFile (f : File.t)
| FormText (s : string)
| FormJsonStringify (xs : list string).

Definition FormData := list (string * FormValue).

Record RequestInit := { method : string; body : FormData }.

(** The response: [ok] is true for a status in 200..299. *)
Record Response := { status : nat }.

Definition ok (r : Response) : bool := (200 <=? status r)%nat && (status r <=? 299)%nat.

(** The parsed body.  The handler reads three properties of it; each is
    absent or has the type of the cell it goes to ([string | null],
    [number | null]).  Reading a property of [null] throws; a body that
    is a number, a string, a boolean or an array has none of the three
    properties and is the object without them. *)
Module Result.
Record t := {
  fileUrl : option string;
  fileBlob : option string;
  amendedSlidesCount : option Z
}.
End Result.

Inductive Json :=
| JsonNull
| JsonObject (o : Result.t).

(** ** The state cells *)

Record State := {
  selectedReport : option string;
  fileInfo : option FileInfo.t;
  uploadedFile : option File.t;
  selectedOptions : list string;
  error : string;
  correctedFileUrl : option string;
  amendedSlidesCount : option Z;
  isProcessing : bool
}.

(** The initial values given to [useState]. *)
Definition initialState : State := {|
  selectedReport := None;
  fileInfo := None;
  uploadedFile := None;
  selectedOptions := [];
  error := "";
  correctedFileUrl := None;
  amendedSlidesCount := None;
  isProcessing := false
|}.

(** What a handler does between two [await]s: it calls setters, and
    [alert]. *)
Inductive Action :=
| setSelectedReport (v : option string)
| setFileInfo (v : option FileInfo.t)
| setUploadedFile (v : option File.t)
| setSelectedOptions (v : list string)
| setError (v : string)
| setCorrectedFileUrl (v : option string)
| setAmendedSlidesCount (v : option Z)
| setIsProcessing (v : bool)
| alert (msg : string).

Definition apply (s : State) (a : Action) : State :=
  match a with
  | setSelectedReport v =>
      {| selectedReport := v; fileInfo := fileInfo s; uploadedFile := uploadedFile s;
         selectedOptions := selectedOptions s; error := error s;
         correctedFileUrl := correctedFileUrl s;
         amendedSlidesCount := amendedSlidesCount s; isProcessing := isProcessing s |}
  | setFileInfo v =>
      {| selectedReport := selectedReport s; fileInfo := v; uploadedFile := uploadedFile s;
         selectedOptions := selectedOptions s; error := error s;
         correctedFileUrl := correctedFileUrl s;
         amendedSlidesCount := amendedSlidesCount s; isProcessing := isProcessing s |}
  | setUploadedFile v =>
      {| selectedReport := selectedReport s; fileInfo := fileInfo s; uploadedFile := v;
         selectedOptions := selectedOptions s; error := error s;
         correctedFileUrl := correctedFileUrl s;
         amendedSlidesCount := amendedSlidesCount s; isProcessing := isProcessing s |}
  | setSelectedOptions v =>
      {| selectedReport := selectedReport s; fileInfo := fileInfo s;
         uploadedFile := uploadedFile s;
         selectedOptions := v; error := error s;
         correctedFileUrl := correctedFileUrl s;
         amendedSlidesCount := amendedSlidesCount s; isProcessing := isProcessing s |}
  | setError v =>
      {| selectedReport := selectedReport s; fileInfo := fileInfo s;
         uploadedFile := uploadedFile s;
         selectedOptions := selectedOptions s; error := v;
         correctedFileUrl := correctedFileUrl s;
         amendedSlidesCount := amendedSlidesCount s; isProcessing := isProcessing s |}
  | setCorrectedFileUrl v =>
      {| selectedReport := selectedReport s; fileInfo := fileInfo s;
         uploadedFile := uploadedFile s;
         selectedOptions := selectedOptions s; error := error s;
         correctedFileUrl := v;
         amendedSlidesCount := amendedSlidesCount s; isProcessing := isProcessing s |}
  | setAmendedSlidesCount v =>
      {| selectedReport := selectedReport s; fileInfo := fileInfo s;
         uploadedFile := uploadedFile s;
         selectedOptions := selectedOptions s; error := error s;
         correctedFileUrl := correctedFileUrl s;
         amendedSlidesCount := v; isProcessing := isProcessing s |}
  | setIsProcessing v =>
      {| selectedReport := selectedReport s; fileInfo := fileInfo s;
         uploadedFile := uploadedFile s;
         selectedOptions := selectedOptions s; error := error s;
         correctedFileUrl := correctedFileUrl s;
         amendedSlidesCount := amendedSlidesCount s; isProcessing := v |}
  | alert _ => s
  end.

(** ** Handlers as resumptions

    A handler runs setter calls until it returns or reaches an [await];
    the continuation of an [await] takes how the awaited promise
    settled.  [try]/[catch] is the continuation's case on [Rejected]. *)
Inductive Prog :=
| Return
| Call (a : Action) (k : Prog)
| AwaitArrayBuffer (f : File.t) (k : Js.Settled (list Byte.byte) -> Prog)
| AwaitLoadAsync (data : list Byte.byte) (k : Js.Settled JSZip -> Prog)
| AwaitFetch (url : string) (init : RequestInit) (k : Js.Settled Response -> Prog)
| AwaitJson (r : Response) (k : Js.Settled Json -> Prog).

Declare Scope prog_scope.
Bind Scope prog_scope with Prog.
Notation "a ;; k" := (Call a k)
  (at level 100, k at level 200, right associativity) : prog_scope.
Local Open Scope prog_scope.

(** The archive entries that count as slides. *)
Definition isSlideFile (filename : string) : bool :=
  Js.startsWith filename "ppt/slides/slide" && Js.endsWith filename ".xml".

Definition isPptx (file : File.t) : bool :=
  Js.endsWith (Js.toLowerCase (File.name file)) ".pptx".

Definition isPpt (file : File.t) : bool :=
  Js.endsWith (Js.toLowerCase (File.name file)) ".ppt".

Definition sizeLabel (file : File.t) : string :=
  Js.kilobytesToFixed2 (File.size file) ++ " KB".

(** The [catch] block of [handleFileChange]. *)
Definition handleFileChange_catch : Prog :=
  setError "Failed to read pptx file." ;;
  setFileInfo None ;;
  Return.

Definition handleFileChange (e_target_files : option (list File.t)) : Prog :=
  match Js.optionalFirst e_target_files with
  | None => Return
  | Some file =>
      setUploadedFile (Some file) ;;
      setCorrectedFileUrl None ;;
      setAmendedSlidesCount None ;;
      if negb (isPpt file) && negb (isPptx file) then
        setError "Only .ppt or .pptx files are allowed." ;;
        setFileInfo None ;;
        Return
      else if isPpt file then
        setFileInfo (Some {| FileInfo.name := File.name file;
                             FileInfo.type := "ppt";
                             FileInfo.size := sizeLabel file;
                             FileInfo.slideCount := SlideUnknown |}) ;;
        setError "" ;;
        Return
      else
        AwaitArrayBuffer file (fun r =>
          match r with
          | Js.Rejected _ => handleFileChange_catch
          | Js.Resolved arrayBuffer =>
              AwaitLoadAsync arrayBuffer (fun r =>
                match r with
                | Js.Rejected _ => handleFileChange_catch
                | Js.Resolved zip =>
                    let slideFiles := List.filter isSlideFile (Object_keys (files zip)) in
                    setFileInfo (Some {| FileInfo.name := File.name file;
                                         FileInfo.type := File.type file;
                                         FileInfo.size := sizeLabel file;
                                         FileInfo.slideCount :=
                                           SlideNumber (length slideFiles) |}) ;;
                    setError "" ;;
                    Return
                end)
          end)
  end.

(** [xs.includes(x)] on strings. *)
Definition includes (xs : list string) (x : string) : bool :=
  existsb (String.eqb x) xs.

(** The [finally] and [catch] blocks of [handleStart]. *)
Definition handleStart_finally : Prog :=
  setIsProcessing false ;;
  Return.

Definition handleStart_catch (err : Js.Error) : Prog :=
  setError (Js.orElse (Js.message err) "Error processing the file.") ;;
  handleStart_finally.

(** The message of the [TypeError] that reading [result.fileUrl] throws
    when [result] is [null]; engines word it differently. *)
Definition nullReadError : Js.Error :=
  {| Js.message := Some "Cannot read properties of null (reading 'fileUrl')" |}.

(** The three [formData.append] calls of [handleStart]. *)
Definition processFormData
    (uploadedFile : File.t) (selectedReport : option string)
    (selectedOptions : list string) : FormData :=
  [ ("file", FormFile uploadedFile);
    ("report", FormText (default "" selectedReport));
    ("options", FormJsonStringify selectedOptions) ].

(** Lines 137-149: what [handleStart] does with the parsed body. *)
Definition handleStart_result (result : Json) : Prog :=
  match result with
  | JsonNull => handleStart_catch nullReadError
  | JsonObject result =>
      let rest : Prog :=
        setAmendedSlidesCount (Some (Js.orZero (Result.amendedSlidesCount result))) ;;
        alert "Process completed successfully!" ;;
        handleStart_finally in
      if Js.truthy (Result.fileUrl result) then
        setCorrectedFileUrl (Result.fileUrl result) ;;
        rest
      else if Js.truthy (Result.fileBlob result) then
        rest
      else
        setCorrectedFileUrl None ;;
        rest
  end.

(** The [try] block of [handleStart]. *)
Definition handleStart_try
    (uploadedFile : File.t) (selectedReport : option string)
    (selectedOptions : list string) : Prog :=
  let formData := processFormData uploadedFile selectedReport selectedOptions in
  AwaitFetch "/api/process-ppt" {| method := "POST"; body := formData |} (fun r =>
    match r with
    | Js.Rejected err => handleStart_catch err
    | Js.Resolved response =>
        if negb (ok response) then
          handleStart_catch {| Js.message := Some "Failed to process the PPT file." |}
        else
          AwaitJson response (fun r =>
            match r with
            | Js.Rejected err => handleStart_catch err
            | Js.Resolved result => handleStart_result result
            end)
    end).

(** [handleStart] reads the cells of the render it was created in. *)
Definition handleStart (s : State) : Prog :=
  if negb (Js.truthy (selectedReport s)) then
    setError "Please select a report." ;;
    Return
  else
  match fileInfo s, uploadedFile s with
  | Some _, Some file =>
      if (length (selectedOptions s) =? 0)%nat then
        setError "Please select at least one option." ;;
        Return
      else
        setError "" ;;
        setCorrectedFileUrl None ;;
        setAmendedSlidesCount None ;;
        if includes (selectedOptions s) "language" then
          setIsProcessing true ;;
          handleStart_try file (selectedReport s) (selectedOptions s)
        else
          alert "Process started successfully!" ;;
          Return
  | _, _ =>
      setError "Please upload a PowerPoint file." ;;
      Return
  end.

(** ** Running a handler

    The environment settles each awaited promise.  A run is the list of
    what the handler did, in program order; the cells after the run are
    the cells before it with the setter calls applied in that order. *)
Record Env := {
  arrayBuffer : File.t -> Js.Settled (list Byte.byte);
  loadAsync : list Byte.byte -> Js.Settled JSZip;
  fetch : string -> RequestInit -> Js.Settled Response;
  json : Response -> Js.Settled Json
}.

Inductive Label :=
| did (a : Action)
| awaitedArrayBuffer (f : File.t)
| awaitedLoadAsync (data : list Byte.byte)
| awaitedFetch (url : string) (init : RequestInit)
| awaitedJson (r : Response).

Fixpoint trace (env : Env) (p : Prog) : list Label :=
  match p with
  | Return => []
  | Call a k => did a :: trace env k
  | AwaitArrayBuffer f k => awaitedArrayBuffer f :: trace env (k (arrayBuffer env f))
  | AwaitLoadAsync data k => awaitedLoadAsync data :: trace env (k (loadAsync env data))
  | AwaitFetch url init k => awaitedFetch url init :: trace env (k (fetch env url init))
  | AwaitJson r k => awaitedJson r :: trace env (k (json env r))
  end.

Definition effect (s : State) (l : Label) : State :=
  match l with
  | did a => apply s a
  | _ => s
  end.

Definition exec (s : State) (t : list Label) : State := fold_left effect t s.

(** The cells once the handler has run to its end. *)
Definition run (env : Env) (p : Prog) (s : State) : State := exec s (trace env p).

(** The synchronous part of a handler: the calls up to its first
    [await] (or its end), and what is left suspended there. *)
Fixpoint advance (p : Prog) : list Action * Prog :=
  match p with
  | Call a k => let '(acts, rest) := advance k in (a :: acts, rest)
  | _ => ([], p)
  end.

(** The cells while the handler is suspended at its first [await]. *)
Definition suspended (p : Prog) (s : State) : State :=
  fold_left apply (fst (advance p)) s.

Definition isNetworkCall (l : Label) : bool :=
  match l with
  | awaitedFetch _ _ => true
  | _ => false
  end.

Definition isAwait (l : Label) : bool :=
  match l with
  | did _ => false
  | _ => true
  end.

(** ** The rendered form *)

Record Anchor := { href : string; download : string }.

Record View := {
  reportSelect_value : string;
  reportSelect_disabled : bool;
  fileInput_disabled : bool;
  fileInfoPanel : option FileInfo.t;
  optionsSelect_isDisabled : bool;
  startButton_disabled : bool;
  startButton_label : string;
  errorMessage : option string;
  downloadLink : option Anchor;
  (* the line "Slides Amended: {amendedSlidesCount}": absent, or the
     number it shows after its label *)
  amendedSlides : option Z
}.

Definition render (s : State) : View := {|
  reportSelect_value := Js.orElse (selectedReport s) "";
  (* the report <select> carries no [disabled] attribute *)
  reportSelect_disabled := false;
  fileInput_disabled := isProcessing s;
  fileInfoPanel := fileInfo s;
  optionsSelect_isDisabled := isProcessing s;
  startButton_disabled := isProcessing s;
  startButton_label := if isProcessing s then "Processing..." else "Start";
  errorMessage := if Js.truthyStr (error s) then Some (error s) else None;
  downloadLink :=
    match correctedFileUrl s with
    | Some url =>
        if Js.truthyStr url then
          Some {| href := url;
                  download := "corrected_" ++
                    match fileInfo s with
                    | Some info => FileInfo.name info
                    | None => "undefined"
                    end |}
        else None
    | None => None
    end;
  amendedSlides :=
    match amendedSlidesCount s with
    | Some n => Some n
    | None => None
    end
|}.

(** ** User events *)

Inductive Event :=
| reportSelect_onChange (e_target_value : string)
| fileInput_onChange (e_target_files : option (list File.t))
| optionsSelect_onChange (opts : list SelectOption)
| startButton_onClick.

Definition handler (s : State) (ev : Event) : Prog :=
  match ev with
  | reportSelect_onChange v => setSelectedReport (Some v) ;; Return
  | fileInput_onChange fs => handleFileChange fs
  | optionsSelect_onChange opts => setSelectedOptions (map value opts) ;; Return
  | startButton_onClick => handleStart s
  end.

(** A disabled control fires no event. *)
Definition fires (v : View) (ev : Event) : bool :=
  match ev with
  | reportSelect_onChange _ => negb (reportSelect_disabled v)
  | fileInput_onChange _ => negb (fileInput_disabled v)
  | optionsSelect_onChange _ => negb (optionsSelect_isDisabled v)
  | startButton_onClick => negb (startButton_disabled v)
  end.

(** The states the form reaches when every event is handled to its end
    before the next one fires. *)
Inductive reachable (env : Env) : State -> Prop :=
| reachable_initial : reachable env initialState
| reachable_event s ev :
    reachable env s ->
    fires (render s) ev = true ->
    reachable env (run env (handler s ev) s).

(** The three preconditions of [handleStart]. *)
Definition reportChosen (s : State) : bool := Js.truthy (selectedReport s).

Definition fileReady (s : State) : bool :=
  match fileInfo s, uploadedFile s with
  | Some _, Some _ => true
  | _, _ => false
  end.

Definition optionChosen (s : State) : bool := negb (length (selectedOptions s) =? 0)%nat.

Definition accepted (s : State) : bool := reportChosen s && fileReady s && optionChosen s.

(** ** Vocabulary of the statements *)



(** The request [handleStart] sends for the cells [s] and their file. *)
Definition startRequest (s : State) (file : File.t) : RequestInit :=
  {| method := "POST";
     body := processFormData file (selectedReport s) (selectedOptions s) |}.

(** Labels that write the file cells, and labels that write the result
    cells. *)
Definition writesFile (l : Label) : bool :=
  match l with
  | did (setFileInfo _) | did (setUploadedFile _) => true
  | _ => false
  end.

Definition writesResult (l : Label) : bool :=
  match l with
  | did (setCorrectedFileUrl _) | did (setAmendedSlidesCount _) => true
  | _ => false
  end.

(** Both result cells are null. *)
Definition resultCleared (s : State) : Prop :=
  correctedFileUrl s = None /\ amendedSlidesCount s = None.

(** ** Intake outcomes *)

Definition passedExtension (file : File.t) : bool := isPpt file || isPptx file.

(** Whether the bytes of the file are read and load as an archive. *)
Definition archiveLoads (env : Env) (file : File.t) : bool :=
  match arrayBuffer env file with
  | Js.Resolved data =>
      match loadAsync env data with
      | Js.Resolved _ => true
      | Js.Rejected _ => false
      end
  | Js.Rejected _ => false
  end.

(** The metadata, when there is some, is that of the uploaded file, and
    there is some exactly when intake got through. *)
Definition intakeInvariant (env : Env) (s : State) : Prop :=
  match fileInfo s with
  | Some info =>
      exists file, uploadedFile s = Some file
        /\ FileInfo.name info = File.name file
        /\ passedExtension file = true
        /\ (isPptx file = true -> archiveLoads env file = true)
  | None =>
      forall file, uploadedFile s = Some file ->
        passedExtension file = false
        \/ (isPptx file = true /\ archiveLoads env file = false)
  end.

(** The last code unit of a string. *)
Fixpoint lastChar (s : string) : option ascii :=
  match s with
  | EmptyString => None
  | String c EmptyString => Some c
  | String _ t => lastChar t
  end.

(** ** Fixtures: files, archives and environments used in examples *)

Module Fixtures.

Definition deckPptx : File.t :=
  {| File.name := "Deck.PPTX";
     File.type := "application/vnd.openxmlformats-officedocument.presentationml.presentation";
     File.size := 2048 |}.

Definition oldPpt : File.t :=
  {| File.name := "old.ppt"; File.type := "application/vnd.ms-powerpoint"; File.size := 1500 |}.

Definition notes : File.t :=
  {| File.name := "notes.txt"; File.type := "text/plain"; File.size := 5 |}.

Definition entry : ZipObject := {| dir := false |}.
Definition folder : ZipObject := {| dir := true |}.

(** Three slides, and entries that are not slides. *)
Definition deckZip : JSZip :=
  {| files :=
       list_to_map
         [ ("[Content_Types].xml", entry);
           ("ppt/", folder);
           ("ppt/presentation.xml", entry);
           ("ppt/slides/", folder);
           ("ppt/slides/slide1.xml", entry);
           ("ppt/slides/slide2.xml", entry);
           ("ppt/slides/slide10.xml", entry);
           ("ppt/slides/_rels/slide1.xml.rels", entry);
           ("ppt/slideLayouts/slideLayout1.xml", entry) ] |}.

Definition deckBytes : list Byte.byte := [Byte.x50; Byte.x4b; Byte.x03; Byte.x04].

Definition response200 : Response := {| status := 200 |}.
Definition response500 : Response := {| status := 500 |}.

(** An environment whose file reads and archive loads succeed, and
    whose endpoint answers [response] with the body [parsed]. *)
Definition env (response : Js.Settled Response) (parsed : Js.Settled Json) : Env :=
  {| arrayBuffer := fun _ => Js.Resolved deckBytes;
     loadAsync := fun _ => Js.Resolved deckZip;
     fetch := fun _ _ => response;
     json := fun _ => parsed |}.

(** An environment in which the bytes read are not an archive. *)
Definition corruptEnv : Env :=
  {| arrayBuffer := fun _ => Js.Resolved [Byte.x00];
     loadAsync := fun _ => Js.Rejected {| Js.message := Some "Corrupted zip" |};
     fetch := fun _ _ => Js.Rejected {| Js.message := Some "Failed to fetch" |};
     json := fun _ => Js.Rejected {| Js.message := None |} |}.

Definition body (url : option string) (count : option Z) : Js.Settled Json :=
  Js.Resolved (JsonObject {| Result.fileUrl := url;
                             Result.fileBlob := None;
                             Result.amendedSlidesCount := count |}).

(** The form filled in: a report, an accepted file, some options. *)
Definition filled (options : list string) : State :=
  {| selectedReport := Some "Report2";
     fileInfo := Some {| FileInfo.name := "Deck.PPTX";
                         FileInfo.type := File.type deckPptx;
                         FileInfo.size := "2.00 KB";
                         FileInfo.slideCount := SlideNumber 3 |};
     uploadedFile := Some deckPptx;
     selectedOptions := options;
     error := "";
     correctedFileUrl := None;
     amendedSlidesCount := None;
     isProcessing := false |}.

(** The filled form with "language" chosen, its start suspended at the
    request. *)
Definition inFlight : State :=
  suspended (handleStart (filled ["language"])) (filled ["language"]).

End Fixtures.

(** ** Vocabulary of the further statements *)

(** Labels that write the report, the options or the processing flag. *)
Definition writesSelection (l : Label) : bool :=
  match l with
  | did (setSelectedReport _) | did (setSelectedOptions _) | did (setIsProcessing _) => true
  | _ => false
  end.

(** Labels that write what a start reads: the report, the options, the
    metadata and the file. *)
Definition writesInputs (l : Label) : bool :=
  match l with
  | did (setSelectedReport _) | did (setSelectedOptions _)
  | did (setFileInfo _) | did (setUploadedFile _) => true
  | _ => false
  end.

Definition isAlert (l : Label) : bool :=
  match l with
  | did (alert _) => true
  | _ => false
  end.

(** The metadata [info] is the one intake computes for [file]. *)
Definition describes (info : FileInfo.t) (file : File.t) : Prop :=
  FileInfo.name info = File.name file
  /\ FileInfo.size info = sizeLabel file
  /\ if isPpt file
     then FileInfo.type info = "ppt" /\ FileInfo.slideCount info = SlideUnknown
     else FileInfo.type info = File.type file
          /\ exists n, FileInfo.slideCount info = SlideNumber n.

(** What holds of the cells whenever no handler is running. *)
Definition quiescent (s : State) : Prop :=
  isProcessing s = false
  /\ (forall info, fileInfo s = Some info ->
        exists file, uploadedFile s = Some file /\ describes info file)
  /\ (forall url, correctedFileUrl s = Some url ->
        url <> "" /\ amendedSlidesCount s <> None)
  /\ (amendedSlidesCount s <> None -> fileInfo s <> None).

(** Two selections that overlap: the handler of the first is suspended
    at its first [await] when the second is handled to its end, and
    then the first is resumed. *)
Definition overlapped
    (env : Env) (first second : option (list File.t)) (s : State) : State :=
  run env (snd (advance (handleFileChange first)))
    (run env (handleFileChange second) (suspended (handleFileChange first) s)).

(** Events handled one after the other, each to its end; an event of a
    disabled control is dropped. *)
Definition play (env : Env) (evs : list Event) (s : State) : State :=
  fold_left (fun s ev => if fires (render s) ev then run env (handler s ev) s else s) evs s.

(** Further files, environments and sessions. *)
Module Samples.

Definition answering : Env :=
  Fixtures.env (Js.Resolved Fixtures.response200)
    (Fixtures.body (Some "https://x/y.pptx") (Some 3%Z)).

(** A report, a file, two options, start. *)
Definition session : list Event :=
  [ reportSelect_onChange "Report1";
    fileInput_onChange (Some [Fixtures.deckPptx]);
    optionsSelect_onChange [ {| value := "language"; label := "Language" |};
                             {| value := "format"; label := "Format" |} ];
    startButton_onClick ].

Definition bare : File.t :=
  {| File.name := "ppt"; File.type := ""; File.size := 0 |}.

Definition template : File.t :=
  {| File.name := "Intro.PpT"; File.type := "application/octet-stream"; File.size := 1024 |}.

Definition refused : Env :=
  {| arrayBuffer := fun _ => Js.Rejected {| Js.message := Some "NotReadableError" |};
     loadAsync := fun _ => Js.Resolved Fixtures.deckZip;
     fetch := fun _ _ => Js.Rejected {| Js.message := Some "" |};
     json := fun _ => Js.Resolved JsonNull |}.


End Samples.

(** ** Examples *)

Example toLowerCase_mixed : Js.toLowerCase "Deck.PPTX" = "deck.pptx".
Proof. reflexivity. Qed.

Example endsWith_pptx : Js.endsWith "deck.pptx" ".pptx" = true.
Proof. reflexivity. Qed.

Example endsWith_pptx_not_ppt : Js.endsWith "deck.pptx" ".ppt" = false.
Proof. reflexivity. Qed.

Example endsWith_short : Js.endsWith "ppt" ".ppt" = false.
Proof. reflexivity. Qed.

Example kilobytes_2048 : Js.kilobytesToFixed2 2048 = "2.00".
Proof. reflexivity. Qed.

Example kilobytes_1500 : Js.kilobytesToFixed2 1500 = "1.46".
Proof. reflexivity. Qed.

Example kilobytes_5 : Js.kilobytesToFixed2 5 = "0.00".
Proof. reflexivity. Qed.

Example decimal_samples : map Js.decimal [0; 7; 42; 1024]%N = ["0"; "7"; "42"; "1024"].
Proof. reflexivity. Qed.

(** Splitting on every test a handler makes. *)
Ltac branch :=
  match goal with
  | |- context [if ?b then _ else _] => destruct b eqn:?
  | |- context [match ?x with _ => _ end] => destruct x eqn:?
  end.

(** ** Facts about the string tests *)

Section Strings.

Lemma dropStr_suffix (n : nat) (s : string) :
  exists q, s = q ++ Js.dropStr n s.
Proof.
  revert s; induction n as [|n IH]; intros s.
  - exists ""; reflexivity.
  - destruct s as [|c t]; simpl.
    + exists ""; reflexivity.
    + destruct (IH t) as [q Hq]. exists (String c q).
      change (String c t = String c (q ++ Js.dropStr n t)). congruence.
Qed.

Lemma endsWith_suffix (s p : string) :
  Js.endsWith s p = true -> exists q, s = q ++ p.
Proof.
  unfold Js.endsWith. intros H.
  apply andb_true_iff in H as [_ H]. apply String.eqb_eq in H.
  destruct (dropStr_suffix (String.length s - String.length p) s) as [q Hq].
  exists q. congruence.
Qed.

Lemma lastChar_append (q : string) (c : ascii) (p : string) :
  lastChar (q ++ String c p) = lastChar (String c p).
Proof.
  induction q as [|d q IH]; [reflexivity|].
  change (String d q ++ String c p) with (String d (q ++ String c p)).
  rewrite <- IH. simpl. destruct (q ++ String c p) eqn:E; [|reflexivity].
  destruct q; discriminate.
Qed.

(** A name cannot end in both suffixes: the two tests on the extension
    exclude each other. *)
Lemma endsWith_pptx_ppt (s : string) :
  Js.endsWith s ".pptx" = true -> Js.endsWith s ".ppt" = false.
Proof.
  intros H. destruct (Js.endsWith s ".ppt") eqn:E; [|reflexivity].
  apply endsWith_suffix in H as [q1 H1]. apply endsWith_suffix in E as [q2 H2].
  assert (L : lastChar s = lastChar s) by reflexivity.
  rewrite H1 in L at 1. rewrite H2 in L at 1.
  rewrite !lastChar_append in L. discriminate.
Qed.

Lemma isPptx_not_isPpt (file : File.t) : isPptx file = true -> isPpt file = false.
Proof. apply endsWith_pptx_ppt. Qed.

End Strings.

(** ** Counting the entries of an archive *)

Section Counting.

Context {V : Type}.
Implicit Types (m : gmap string V) (l : list (string * V)) (p : string -> bool).

Lemma length_filter_fst p l :
  length (List.filter p l.*1) = length (filter (fun e => p e.1 = true) l).
Proof.
  induction l as [|[k v] l IH]; [reflexivity|].
  rewrite filter_cons. cbn [fmap list_fmap List.filter fst].
  destruct (decide (p (k, v).1 = true)) as [Hp|Hp]; cbn [fst] in Hp.
  - rewrite Hp. simpl. f_equal. exact IH.
  - apply not_true_is_false in Hp. rewrite Hp. exact IH.
Qed.

(** The number of keys that pass a test is the number of entries whose
    key passes it: an object has each key once. *)
Lemma length_filter_keys p m :
  length (List.filter p (Object_keys m)) = size (filter (fun e => p e.1 = true) m).
Proof.
  unfold Object_keys. rewrite length_filter_fst.
  rewrite (map_filter_alt (fun e => p e.1 = true) m).
  rewrite map_size_list_to_map; [reflexivity|].
  eapply sublist_NoDup; [apply (NoDup_fst_map_to_list m)|].
  apply fmap_sublist, sublist_filter.
Qed.

(** Entries split into those that pass and decoys that do not. *)
Lemma size_filter_split p m (hits decoys : gmap string V) :
  m = hits ∪ decoys ->
  hits ##ₘ decoys ->
  (forall k v, hits !! k = Some v -> p k = true) ->
  (forall k v, decoys !! k = Some v -> p k = false) ->
  size (filter (fun e => p e.1 = true) m) = size hits.
Proof.
  intros -> Hdisj Hh Hd.
  rewrite map_filter_union by exact Hdisj.
  rewrite (map_filter_id _ hits) by (intros i x Hi; exact (Hh i x Hi)).
  rewrite (map_empty_filter_2 _ decoys).
  - by rewrite (right_id_L ∅ (∪)).
  - intros i x Hi. cbn. rewrite (Hd i x Hi). discriminate.
Qed.

End Counting.

Example intake_deck :
  fileInfo (run (Fixtures.env (Js.Resolved Fixtures.response200) (Fixtures.body None None))
                (handleFileChange (Some [Fixtures.deckPptx])) initialState)
  = fileInfo (Fixtures.filled []).
Proof. vm_compute. reflexivity. Qed.

Example intake_old_ppt :
  fileInfo (run Fixtures.corruptEnv (handleFileChange (Some [Fixtures.oldPpt])) initialState)
  = Some {| FileInfo.name := "old.ppt"; FileInfo.type := "ppt";
            FileInfo.size := "1.46 KB"; FileInfo.slideCount := SlideUnknown |}.
Proof. vm_compute. reflexivity. Qed.

Example intake_notes :
  let s := run Fixtures.corruptEnv (handleFileChange (Some [Fixtures.notes])) initialState in
  fileInfo s = None /\ error s = "Only .ppt or .pptx files are allowed.".
Proof. vm_compute. split; reflexivity. Qed.

(** ** Runs and their states *)

Lemma exec_cons (s : State) (l : Label) (t : list Label) :
  exec s (l :: t) = exec (effect s l) t.
Proof. reflexivity. Qed.

(** A run passes through the suspended state: it is the run of what is
    left at the first [await], from the cells as they are there. *)
Lemma run_resumes (env : Env) (p : Prog) (s : State) :
  run env p s = run env (snd (advance p)) (suspended p s).
Proof.
  revert s; induction p as [|a k IH| | | |]; intros s; try reflexivity.
  unfold run, suspended in *. cbn [advance trace].
  destruct (advance k) as [acts rest]. cbn [fst snd fold_left] in *.
  rewrite exec_cons. apply IH.
Qed.


Lemma truthyStr_ne (v : string) : v <> "" -> Js.truthyStr v = true.
Proof.
  intros H. unfold Js.truthyStr. destruct (String.eqb v "") eqn:E; [|reflexivity].
  apply String.eqb_eq in E. contradiction.
Qed.

(** *** C10 *)

(** C10: a file-change event that carries no file ([files] is null or
    empty) makes [handleFileChange] return at once: it calls no setter,
    awaits nothing, and every cell keeps its value. *)
Theorem handleFileChange_no_file (env : Env) (s : State) (fs : option (list File.t)) :
  Js.optionalFirst fs = None ->
  handleFileChange fs = Return
  /\ trace env (handleFileChange fs) = []
  /\ run env (handleFileChange fs) s = s.
Proof.
  intros H. unfold run, handleFileChange. rewrite H. repeat split.
Qed.

Lemma handleFileChange_no_file_witness :
  handleFileChange (Some []) = Return
  /\ trace Fixtures.corruptEnv (handleFileChange (Some [])) = []
  /\ run Fixtures.corruptEnv (handleFileChange (Some []))
       (Fixtures.filled ["language"]) = Fixtures.filled ["language"].
Proof.
  apply (handleFileChange_no_file Fixtures.corruptEnv (Fixtures.filled ["language"]) (Some [])).
  reflexivity.
Defined.

(** *** C1 *)

(** C1: for a file whose name ends in .pptx (any case) and whose bytes
    load as an archive, intake sets [slideCount] to the number of
    entries of the archive whose path starts with "ppt/slides/slide"
    and ends with ".xml"; when the entries are [N] such paths and decoys
    that do not match, the count is [N]. *)
Theorem handleFileChange_slideCount
    (env : Env) (s : State) (fs : option (list File.t)) (file : File.t)
    (data : list Byte.byte) (zip : JSZip) :
  Js.optionalFirst fs = Some file ->
  isPptx file = true ->
  arrayBuffer env file = Js.Resolved data ->
  loadAsync env data = Js.Resolved zip ->
  FileInfo.slideCount <$> fileInfo (run env (handleFileChange fs) s)
  = Some (SlideNumber (size (filter (fun e => isSlideFile e.1 = true) (files zip))))
  /\ forall (slides decoys : gmap string ZipObject) (N : nat),
       files zip = slides ∪ decoys ->
       slides ##ₘ decoys ->
       (forall k v, slides !! k = Some v -> isSlideFile k = true) ->
       (forall k v, decoys !! k = Some v -> isSlideFile k = false) ->
       size slides = N ->
       FileInfo.slideCount <$> fileInfo (run env (handleFileChange fs) s)
       = Some (SlideNumber N).
Proof.
  intros Hfile Hx Hbuf Hzip.
  assert (Hcount : FileInfo.slideCount <$> fileInfo (run env (handleFileChange fs) s)
    = Some (SlideNumber (size (filter (fun e => isSlideFile e.1 = true) (files zip))))).
  { unfold run, handleFileChange. rewrite Hfile.
    rewrite (isPptx_not_isPpt file Hx), Hx.
    cbn [negb andb trace]. rewrite Hbuf. cbn [trace]. rewrite Hzip.
    cbn [trace exec fold_left effect apply fileInfo fmap option_fmap option_map
         FileInfo.slideCount].
    by rewrite length_filter_keys. }
  split; [exact Hcount|].
  intros slides decoys N Hsplit Hdisj Hs Hd <-.
  rewrite Hcount. do 2 f_equal.
  exact (size_filter_split isSlideFile (files zip) slides decoys Hsplit Hdisj Hs Hd).
Qed.

Lemma handleFileChange_slideCount_witness :
  FileInfo.slideCount <$>
    fileInfo (run (Fixtures.env (Js.Resolved Fixtures.response200) (Fixtures.body None None))
                  (handleFileChange (Some [Fixtures.deckPptx])) initialState)
  = Some (SlideNumber 3).
Proof.
  refine (eq_trans
    (proj1 (handleFileChange_slideCount
      (Fixtures.env (Js.Resolved Fixtures.response200) (Fixtures.body None None))
      initialState (Some [Fixtures.deckPptx]) Fixtures.deckPptx Fixtures.deckBytes
      Fixtures.deckZip _ _ _ _)) _).
  - reflexivity.
  - reflexivity.
  - reflexivity.
  - reflexivity.
  - vm_compute. reflexivity.
Defined.

(** ** What the handlers leave alone *)

Lemma exec_keeps_file (t : list Label) (s : State) :
  forallb (fun l => negb (writesFile l)) t = true ->
  fileInfo (exec s t) = fileInfo s /\ uploadedFile (exec s t) = uploadedFile s.
Proof.
  revert s; induction t as [|l t IH]; intros s H; [split; reflexivity|].
  cbn [forallb] in H. apply andb_true_iff in H as [Hl Ht].
  rewrite exec_cons. destruct (IH (effect s l) Ht) as [-> ->].
  destruct l as [[]| | | |]; try discriminate; split; reflexivity.
Qed.

Lemma handleStart_writes_no_file (env : Env) (s : State) :
  forallb (fun l => negb (writesFile l)) (trace env (handleStart s)) = true.
Proof.
  unfold handleStart, handleStart_try, handleStart_result, handleStart_catch,
    handleStart_finally.
  repeat (branch; cbn [trace]); reflexivity.
Qed.

(** ** The metadata and the uploaded file *)

Lemma handleFileChange_invariant (env : Env) (s : State) (fs : option (list File.t)) :
  intakeInvariant env s -> intakeInvariant env (run env (handleFileChange fs) s).
Proof.
  intros Inv. unfold run, handleFileChange.
  destruct (Js.optionalFirst fs) as [file|]; [|exact Inv].
  unfold intakeInvariant, passedExtension, archiveLoads.
  destruct (isPpt file) eqn:Hp; cbn [negb andb orb].
  - cbn. exists file. split; [done|]. split; [done|]. split; [by rewrite Hp|].
    intros Hx. apply isPptx_not_isPpt in Hx. congruence.
  - destruct (isPptx file) eqn:Hx; cbn [negb andb orb].
    + cbn [trace]. destruct (arrayBuffer env file) as [data|err] eqn:Hb; cbn [trace].
      * destruct (loadAsync env data) as [zip|err'] eqn:Hz; cbn.
        -- exists file. rewrite Hp, Hx, Hb, Hz. done.
        -- intros f [= <-]. rewrite Hx, Hb, Hz. right. done.
      * cbn. intros f [= <-]. rewrite Hx, Hb. right. done.
    + cbn. intros f [= <-]. rewrite Hp, Hx. left. done.
Qed.

Lemma reachable_invariant (env : Env) (s : State) :
  reachable env s -> intakeInvariant env s.
Proof.
  induction 1 as [|s ev Hs IH Hfires].
  - intros file [=].
  - destruct ev as [v|fs|opts|]; cbn [handler].
    + exact IH.
    + by apply handleFileChange_invariant.
    + exact IH.
    + unfold intakeInvariant, run in *.
      destruct (exec_keeps_file _ s (handleStart_writes_no_file env s)) as [-> ->].
      exact IH.
Qed.

(** *** C6 *)

(** C6, as the code has it: in every state the form reaches by
    handling events one after the other, there is metadata if and only
    if there is an uploaded file whose name ends (in any case) in .ppt
    or .pptx and which, when the name ends in .pptx, was read and
    loaded as an archive.  (A .pptx whose bytes are not an archive
    passes the extension test and leaves the metadata null.) *)
Theorem fileInfo_iff_intake (env : Env) (s : State) :
  reachable env s ->
  (fileInfo s <> None <->
   exists file, uploadedFile s = Some file
     /\ passedExtension file = true
     /\ (isPptx file = true -> archiveLoads env file = true)).
Proof.
  intros Hs. apply reachable_invariant in Hs. unfold intakeInvariant in Hs.
  destruct (fileInfo s) as [info|]; split.
  - intros _. destruct Hs as (file & Hu & _ & Hp & Ha). by exists file.
  - discriminate.
  - congruence.
  - intros (file & Hu & Hp & Ha). destruct (Hs file Hu) as [Hn|[Hx Hn]].
    + congruence.
    + rewrite (Ha Hx) in Hn. discriminate.
Qed.

Lemma fileInfo_iff_intake_witness :
  fileInfo (run Fixtures.corruptEnv
              (handler initialState (fileInput_onChange (Some [Fixtures.oldPpt])))
              initialState) <> None
  <-> exists file,
        uploadedFile (run Fixtures.corruptEnv
                        (handler initialState (fileInput_onChange (Some [Fixtures.oldPpt])))
                        initialState) = Some file
        /\ passedExtension file = true
        /\ (isPptx file = true -> archiveLoads Fixtures.corruptEnv file = true).
Proof.
  apply (fileInfo_iff_intake Fixtures.corruptEnv).
  apply reachable_event; [apply reachable_initial | reflexivity].
Defined.

(** C6, as stated, fails: a file named Deck.PPTX whose bytes are not an
    archive is uploaded and has passed the extension test, and the form
    rests with no metadata. *)
Lemma corrupt_pptx_has_no_fileInfo :
  let s := run Fixtures.corruptEnv
             (handler initialState (fileInput_onChange (Some [Fixtures.deckPptx])))
             initialState in
  reachable Fixtures.corruptEnv s
  /\ uploadedFile s = Some Fixtures.deckPptx
  /\ passedExtension Fixtures.deckPptx = true
  /\ fileInfo s = None
  /\ ~ (fileInfo s <> None <->
        exists file, uploadedFile s = Some file /\ passedExtension file = true).
Proof.
  cbv zeta. split; [|split; [|split; [|split]]].
  - apply reachable_event; [apply reachable_initial | reflexivity].
  - reflexivity.
  - reflexivity.
  - reflexivity.
  - intros [_ H]. apply H; [|reflexivity].
    exists Fixtures.deckPptx. split; reflexivity.
Qed.

(** *** C2 *)





Example start_without_file :
  error (run Fixtures.corruptEnv (handleStart
    (run Fixtures.corruptEnv (handler initialState (reportSelect_onChange "Report1"))
       initialState))
    (run Fixtures.corruptEnv (handler initialState (reportSelect_onChange "Report1"))
       initialState))
  = "Please upload a PowerPoint file.".
Proof. reflexivity. Qed.

Example start_with_placeholder_report :
  error (run Fixtures.corruptEnv (handleStart
    (apply (Fixtures.filled ["format"]) (setSelectedReport (Some ""))))
    (Fixtures.filled ["format"]))
  = "Please select a report.".
Proof. reflexivity. Qed.

Example start_without_options :
  error (run Fixtures.corruptEnv (handleStart (Fixtures.filled [])) (Fixtures.filled []))
  = "Please select at least one option.".
Proof. reflexivity. Qed.

(** ** Accepted starts *)

Lemma handleStart_accepted (s : State) :
  accepted s = true ->
  exists info file,
    fileInfo s = Some info /\ uploadedFile s = Some file
    /\ handleStart s =
       (setError "" ;;
        setCorrectedFileUrl None ;;
        setAmendedSlidesCount None ;;
        if includes (selectedOptions s) "language" then
          setIsProcessing true ;;
          handleStart_try file (selectedReport s) (selectedOptions s)
        else
          alert "Process started successfully!" ;;
          Return).
Proof.
  unfold accepted, reportChosen, fileReady, optionChosen, handleStart.
  intros H. apply andb_true_iff in H as [H Ho]. apply andb_true_iff in H as [Hr Hf].
  rewrite Hr. cbn [negb].
  destruct (fileInfo s) as [info|]; [|discriminate].
  destruct (uploadedFile s) as [file|]; [|discriminate].
  apply negb_true_iff in Ho. rewrite Ho. by exists info, file.
Qed.

(** *** C4 *)

(** C4: an accepted start whose options do not include "language"
    clears the error and both result cells, alerts that the process
    started, and is over: it awaits nothing (so no request is sent)
    and both result cells are null afterwards. *)
Theorem handleStart_without_language (env : Env) (s : State) :
  accepted s = true ->
  includes (selectedOptions s) "language" = false ->
  advance (handleStart s)
  = ([ setError ""; setCorrectedFileUrl None; setAmendedSlidesCount None;
       alert "Process started successfully!" ], Return)
  /\ trace env (handleStart s)
     = [ did (setError ""); did (setCorrectedFileUrl None);
         did (setAmendedSlidesCount None);
         did (alert "Process started successfully!") ]
  /\ existsb isAwait (trace env (handleStart s)) = false
  /\ existsb isNetworkCall (trace env (handleStart s)) = false
  /\ correctedFileUrl (run env (handleStart s) s) = None
  /\ amendedSlidesCount (run env (handleStart s) s) = None.
Proof.
  intros Ha Hl. destruct (handleStart_accepted s Ha) as (info & file & _ & _ & E).
  unfold run. rewrite E, Hl. repeat split.
Qed.

Lemma handleStart_without_language_witness :
  correctedFileUrl
    (run Fixtures.corruptEnv (handleStart (Fixtures.filled ["format"; "narrative"]))
       (Fixtures.filled ["format"; "narrative"])) = None.
Proof.
  apply (handleStart_without_language Fixtures.corruptEnv
           (Fixtures.filled ["format"; "narrative"])); reflexivity.
Defined.

(** *** C5 *)

(** C5: an accepted start with "language" whose request is answered
    with a status outside 200..299 ends with the processing error as
    the error message, and with both result cells null: nothing is
    offered for download and no amended count is shown. *)
Theorem handleStart_non_success
    (env : Env) (s : State) (file : File.t) (response : Response) :
  accepted s = true ->
  includes (selectedOptions s) "language" = true ->
  uploadedFile s = Some file ->
  fetch env "/api/process-ppt" (startRequest s file) = Js.Resolved response ->
  ok response = false ->
  error (run env (handleStart s) s) = "Failed to process the PPT file."
  /\ errorMessage (render (run env (handleStart s) s))
     = Some "Failed to process the PPT file."
  /\ correctedFileUrl (run env (handleStart s) s) = None
  /\ amendedSlidesCount (run env (handleStart s) s) = None
  /\ downloadLink (render (run env (handleStart s) s)) = None
  /\ amendedSlides (render (run env (handleStart s) s)) = None.
Proof.
  intros Ha Hl Hu Hf Hok.
  destruct (handleStart_accepted s Ha) as (info & file' & _ & Hu' & E).
  assert (file' = file) as -> by congruence.
  unfold run. rewrite E, Hl. unfold handleStart_try. cbn [trace].
  unfold startRequest in Hf. rewrite Hf, Hok. repeat split.
Qed.

Lemma handleStart_non_success_witness :
  error (run (Fixtures.env (Js.Resolved Fixtures.response500) (Fixtures.body None None))
           (handleStart (Fixtures.filled ["language"])) (Fixtures.filled ["language"]))
  = "Failed to process the PPT file.".
Proof.
  apply (handleStart_non_success
           (Fixtures.env (Js.Resolved Fixtures.response500) (Fixtures.body None None))
           (Fixtures.filled ["language"]) Fixtures.deckPptx Fixtures.response500);
    reflexivity.
Defined.

(** *** C9 *)

(** C9: an accepted start with "language" sets the processing flag
    before its request, and however the request and the parsing of its
    body settle (a body, a refused status, a rejected request, a
    rejected parse) the handler ends by calling [setIsProcessing(false)]:
    the flag is false and the controls are enabled again. *)
Theorem handleStart_clears_processing (env : Env) (s : State) :
  accepted s = true ->
  includes (selectedOptions s) "language" = true ->
  isProcessing (suspended (handleStart s) s) = true
  /\ last (trace env (handleStart s)) = Some (did (setIsProcessing false))
  /\ isProcessing (run env (handleStart s) s) = false
  /\ startButton_label (render (run env (handleStart s) s)) = "Start".
Proof.
  intros Ha Hl. destruct (handleStart_accepted s Ha) as (info & file & _ & _ & E).
  unfold run, suspended. rewrite E, Hl.
  split; [reflexivity|].
  unfold handleStart_try, handleStart_result, handleStart_catch, handleStart_finally.
  cbn [trace].
  repeat (branch; cbn [trace]); repeat split.
Qed.

Lemma handleStart_clears_processing_witness :
  isProcessing
    (run (Fixtures.env (Js.Resolved Fixtures.response200)
            (Js.Rejected {| Js.message := Some "Unexpected token < in JSON" |}))
       (handleStart (Fixtures.filled ["language"])) (Fixtures.filled ["language"]))
  = false.
Proof.
  apply (handleStart_clears_processing
           (Fixtures.env (Js.Resolved Fixtures.response200)
              (Js.Rejected {| Js.message := Some "Unexpected token < in JSON" |}))
           (Fixtures.filled ["language"])); reflexivity.
Defined.

(** *** C3 *)




(** *** C7 *)

(** While the flag is set, the file input, the options select and the
    start button are disabled and fire nothing. *)
Lemma processing_disables (s : State) :
  isProcessing s = true ->
  fileInput_disabled (render s) = true
  /\ optionsSelect_isDisabled (render s) = true
  /\ startButton_disabled (render s) = true
  /\ (forall fs, fires (render s) (fileInput_onChange fs) = false)
  /\ (forall opts, fires (render s) (optionsSelect_onChange opts) = false)
  /\ fires (render s) startButton_onClick = false.
Proof. intros H. cbn. rewrite H. repeat split. Qed.

(** The report select has no [disabled] attribute: it fires in every
    state, and its handler writes the report and nothing else. *)
Lemma report_select_always_fires (env : Env) (s : State) (v : string) :
  fires (render s) (reportSelect_onChange v) = true
  /\ selectedReport (run env (handler s (reportSelect_onChange v)) s) = Some v
  /\ isProcessing (run env (handler s (reportSelect_onChange v)) s) = isProcessing s.
Proof. repeat split. Qed.

(** C7 does not hold of the code: with a start suspended at its request
    (the flag set, the other three controls disabled), the report select
    is enabled, and choosing "Report4" replaces the report while the
    flag is still set. *)
Theorem report_select_enabled_in_flight :
  isProcessing Fixtures.inFlight = true
  /\ snd (advance (handleStart (Fixtures.filled ["language"])))
     = handleStart_try Fixtures.deckPptx (Some "Report2") ["language"]
  /\ fileInput_disabled (render Fixtures.inFlight) = true
  /\ optionsSelect_isDisabled (render Fixtures.inFlight) = true
  /\ startButton_disabled (render Fixtures.inFlight) = true
  /\ reportSelect_disabled (render Fixtures.inFlight) = false
  /\ fires (render Fixtures.inFlight) (reportSelect_onChange "Report4") = true
  /\ selectedReport Fixtures.inFlight = Some "Report2"
  /\ selectedReport
       (run Fixtures.corruptEnv
          (handler Fixtures.inFlight (reportSelect_onChange "Report4")) Fixtures.inFlight)
     = Some "Report4"
  /\ isProcessing
       (run Fixtures.corruptEnv
          (handler Fixtures.inFlight (reportSelect_onChange "Report4")) Fixtures.inFlight)
     = true.
Proof. repeat split. Qed.

(** *** C8 *)

Lemma exec_keeps_result (t : list Label) (s : State) :
  forallb (fun l => negb (writesResult l)) t = true ->
  correctedFileUrl (exec s t) = correctedFileUrl s
  /\ amendedSlidesCount (exec s t) = amendedSlidesCount s.
Proof.
  revert s; induction t as [|l t IH]; intros s H; [split; reflexivity|].
  cbn [forallb] in H. apply andb_true_iff in H as [Hl Ht].
  rewrite exec_cons. destruct (IH (effect s l) Ht) as [-> ->].
  destruct l as [[]| | | |]; try discriminate; split; reflexivity.
Qed.

(** A selection that carries a file starts with the three calls of
    lines 41-43, and writes neither result cell again. *)
Lemma handleFileChange_trace (env : Env) (fs : option (list File.t)) (file : File.t) :
  Js.optionalFirst fs = Some file ->
  exists rest,
    trace env (handleFileChange fs)
    = did (setUploadedFile (Some file)) :: did (setCorrectedFileUrl None)
      :: did (setAmendedSlidesCount None) :: rest
    /\ forallb (fun l => negb (writesResult l)) rest = true.
Proof.
  intros H. unfold handleFileChange. rewrite H. cbn [trace].
  eexists. split; [reflexivity|].
  unfold handleFileChange_catch.
  repeat (branch; cbn [trace]); reflexivity.
Qed.

(** C8: when a selection carries a file, whatever the file is and
    however intake ends, both result cells are null at every point at
    which the handler writes the metadata, at its first [await] if it
    has one, and at its end. *)
Theorem handleFileChange_clears_result
    (env : Env) (s : State) (fs : option (list File.t)) (file : File.t) :
  Js.optionalFirst fs = Some file ->
  (forall pre v post,
      trace env (handleFileChange fs) = (pre ++ did (setFileInfo v) :: post)%list ->
      resultCleared (exec s pre))
  /\ resultCleared (suspended (handleFileChange fs) s)
  /\ resultCleared (run env (handleFileChange fs) s).
Proof.
  intros H. destruct (handleFileChange_trace env fs file H) as (rest & E & Hrest).
  split; [|split].
  - intros pre v post Hsplit. rewrite E in Hsplit.
    destruct pre as [|l1 [|l2 [|l3 pre]]]; try discriminate.
    cbn [app] in Hsplit. injection Hsplit as <- <- <- Hr.
    rewrite Hr in Hrest. rewrite forallb_app in Hrest.
    apply andb_true_iff in Hrest as [Hpre _].
    rewrite !exec_cons.
    destruct (exec_keeps_result pre
      (effect (effect (effect s (did (setUploadedFile (Some file))))
         (did (setCorrectedFileUrl None))) (did (setAmendedSlidesCount None))) Hpre)
      as [H1 H2].
    split; [rewrite H1 | rewrite H2]; reflexivity.
  - unfold suspended, handleFileChange. rewrite H.
    destruct (isPpt file), (isPptx file); split; reflexivity.
  - unfold run. rewrite E, !exec_cons.
    destruct (exec_keeps_result rest
      (effect (effect (effect s (did (setUploadedFile (Some file))))
         (did (setCorrectedFileUrl None))) (did (setAmendedSlidesCount None))) Hrest)
      as [H1 H2].
    split; [rewrite H1 | rewrite H2]; reflexivity.
Qed.

(** A new file chosen while a result is on display. *)
Lemma handleFileChange_clears_result_witness :
  resultCleared
    (run Fixtures.corruptEnv (handleFileChange (Some [Fixtures.notes]))
       (run (Fixtures.env (Js.Resolved Fixtures.response200)
               (Fixtures.body (Some "https://x/y.pptx") (Some 3%Z)))
          (handleStart (Fixtures.filled ["language"])) (Fixtures.filled ["language"]))).
Proof.
  apply (handleFileChange_clears_result Fixtures.corruptEnv
           (run (Fixtures.env (Js.Resolved Fixtures.response200)
                   (Fixtures.body (Some "https://x/y.pptx") (Some 3%Z)))
              (handleStart (Fixtures.filled ["language"])) (Fixtures.filled ["language"]))
           (Some [Fixtures.notes]) Fixtures.notes).
  reflexivity.
Defined.

(** ** Further properties of intake *)

(** A projection that the labels of a run do not write keeps its value. *)
Lemma exec_frame {A} (f : State -> A) (w : Label -> bool) (t : list Label) (s : State) :
  (forall s l, w l = false -> f (effect s l) = f s) ->
  forallb (fun l => negb (w l)) t = true ->
  f (exec s t) = f s.
Proof.
  intros Hw. revert s; induction t as [|l t IH]; intros s H; [reflexivity|].
  cbn [forallb] in H. apply andb_true_iff in H as [Hl Ht].
  rewrite exec_cons, (IH _ Ht). apply Hw. by apply negb_true_iff.
Qed.

Lemma handleFileChange_labels (env : Env) (fs : option (list File.t)) :
  forallb (fun l => negb (writesSelection l || isAlert l || isNetworkCall l))
    (trace env (handleFileChange fs)) = true.
Proof.
  unfold handleFileChange, handleFileChange_catch.
  repeat (branch; cbn [trace]); reflexivity.
Qed.

(** X1: a file whose lower-cased name ends in neither .ppt nor .pptx is
    refused without being read: the handler records the file, clears
    the results, sets the extension error and nulls the metadata, and
    awaits nothing. *)
Theorem handleFileChange_unsupported
    (env : Env) (s : State) (fs : option (list File.t)) (file : File.t) :
  Js.optionalFirst fs = Some file ->
  isPpt file = false ->
  isPptx file = false ->
  trace env (handleFileChange fs)
  = [ did (setUploadedFile (Some file)); did (setCorrectedFileUrl None);
      did (setAmendedSlidesCount None);
      did (setError "Only .ppt or .pptx files are allowed.");
      did (setFileInfo None) ]
  /\ error (run env (handleFileChange fs) s) = "Only .ppt or .pptx files are allowed."
  /\ fileInfo (run env (handleFileChange fs) s) = None
  /\ uploadedFile (run env (handleFileChange fs) s) = Some file.
Proof.
  intros H Hp Hx. unfold run, handleFileChange. rewrite H, Hp, Hx. repeat split.
Qed.

(** The name "ppt" has the letters but not the dot. *)
Lemma handleFileChange_unsupported_witness :
  error (run Fixtures.corruptEnv (handleFileChange (Some [Samples.bare])) initialState)
  = "Only .ppt or .pptx files are allowed.".
Proof.
  apply (handleFileChange_unsupported Fixtures.corruptEnv initialState
           (Some [Samples.bare]) Samples.bare); reflexivity.
Defined.

(** X2: a file whose lower-cased name ends in .ppt gets metadata without
    being read, whatever the environment would answer: its own name,
    the type "ppt" in place of its declared type, its size in KB, and
    the slide count "Unknown"; the error is emptied. *)
Theorem handleFileChange_legacy
    (env : Env) (s : State) (fs : option (list File.t)) (file : File.t) :
  Js.optionalFirst fs = Some file ->
  isPpt file = true ->
  existsb isAwait (trace env (handleFileChange fs)) = false
  /\ fileInfo (run env (handleFileChange fs) s)
     = Some {| FileInfo.name := File.name file; FileInfo.type := "ppt";
               FileInfo.size := sizeLabel file; FileInfo.slideCount := SlideUnknown |}
  /\ error (run env (handleFileChange fs) s) = ""
  /\ uploadedFile (run env (handleFileChange fs) s) = Some file.
Proof.
  intros H Hp. unfold run, handleFileChange. rewrite H, Hp. repeat split.
Qed.

Lemma handleFileChange_legacy_witness :
  fileInfo (run Samples.refused (handleFileChange (Some [Samples.template]))
              (Fixtures.filled ["format"]))
  = Some {| FileInfo.name := "Intro.PpT"; FileInfo.type := "ppt";
            FileInfo.size := sizeLabel Samples.template;
            FileInfo.slideCount := SlideUnknown |}.
Proof.
  apply (handleFileChange_legacy Samples.refused (Fixtures.filled ["format"])
           (Some [Samples.template]) Samples.template); reflexivity.
Defined.



(** X4: a .pptx that loads gets metadata with its own name, its declared
    content type and its size in KB, the error is emptied, and the
    slide count is at most the number of entries of the archive. *)
Theorem handleFileChange_modern
    (env : Env) (s : State) (fs : option (list File.t)) (file : File.t)
    (data : list Byte.byte) (zip : JSZip) :
  Js.optionalFirst fs = Some file ->
  isPptx file = true ->
  arrayBuffer env file = Js.Resolved data ->
  loadAsync env data = Js.Resolved zip ->
  exists n,
    fileInfo (run env (handleFileChange fs) s)
    = Some {| FileInfo.name := File.name file; FileInfo.type := File.type file;
              FileInfo.size := sizeLabel file; FileInfo.slideCount := SlideNumber n |}
    /\ n <= size (files zip)
    /\ error (run env (handleFileChange fs) s) = "".
Proof.
  intros H Hx Hb Hz. unfold run, handleFileChange.
  rewrite H, (isPptx_not_isPpt file Hx), Hx. cbn [negb andb trace].
  rewrite Hb. cbn [trace]. rewrite Hz.
  eexists. split; [reflexivity|]. split; [|reflexivity].
  rewrite length_filter_keys. apply map_size_filter.
Qed.

Lemma handleFileChange_modern_witness :
  exists n,
    fileInfo (run (Fixtures.env (Js.Resolved Fixtures.response200) (Fixtures.body None None))
                (handleFileChange (Some [Fixtures.deckPptx])) initialState)
    = Some {| FileInfo.name := "Deck.PPTX";
              FileInfo.type := File.type Fixtures.deckPptx;
              FileInfo.size := sizeLabel Fixtures.deckPptx;
              FileInfo.slideCount := SlideNumber n |}
    /\ n <= size (files Fixtures.deckZip)
    /\ error (run (Fixtures.env (Js.Resolved Fixtures.response200) (Fixtures.body None None))
                (handleFileChange (Some [Fixtures.deckPptx])) initialState) = "".
Proof.
  apply (handleFileChange_modern
           (Fixtures.env (Js.Resolved Fixtures.response200) (Fixtures.body None None))
           initialState (Some [Fixtures.deckPptx]) Fixtures.deckPptx
           Fixtures.deckBytes Fixtures.deckZip); reflexivity.
Defined.

(** X5: the file is read exactly when its lower-cased name ends in
    .pptx: the handler awaits [arrayBuffer()] for such a name and
    awaits nothing for any other. *)
Theorem handleFileChange_reads_iff_pptx
    (env : Env) (fs : option (list File.t)) (file : File.t) :
  Js.optionalFirst fs = Some file ->
  existsb isAwait (trace env (handleFileChange fs)) = isPptx file
  /\ (isPptx file = true ->
      In (awaitedArrayBuffer file) (trace env (handleFileChange fs))).
Proof.
  intros H. unfold handleFileChange. rewrite H.
  destruct (isPptx file) eqn:Hx.
  - rewrite (isPptx_not_isPpt file Hx). cbn. split; [reflexivity|]. intros _. tauto.
  - destruct (isPpt file); cbn; split; (reflexivity || discriminate).
Qed.

Lemma handleFileChange_reads_iff_pptx_witness :
  existsb isAwait (trace Samples.refused (handleFileChange (Some [Samples.template])))
  = isPptx Samples.template.
Proof.
  apply (handleFileChange_reads_iff_pptx Samples.refused
           (Some [Samples.template]) Samples.template). reflexivity.
Defined.

(** X6: whatever the event carries and however the environment
    answers, [handleFileChange] leaves the report, the options and the
    processing flag as they are, and neither alerts nor sends a
    request. *)
Theorem handleFileChange_frame (env : Env) (s : State) (fs : option (list File.t)) :
  selectedReport (run env (handleFileChange fs) s) = selectedReport s
  /\ selectedOptions (run env (handleFileChange fs) s) = selectedOptions s
  /\ isProcessing (run env (handleFileChange fs) s) = isProcessing s
  /\ existsb isAlert (trace env (handleFileChange fs)) = false
  /\ existsb isNetworkCall (trace env (handleFileChange fs)) = false.
Proof.
  pose proof (handleFileChange_labels env fs) as H.
  assert (Hsel : forallb (fun l => negb (writesSelection l))
                   (trace env (handleFileChange fs)) = true).
  { apply forallb_forall. intros l Hin.
    pose proof (proj1 (forallb_forall _ _) H l Hin) as Hl. cbn in Hl.
    apply negb_true_iff in Hl. apply orb_false_iff in Hl as [Hl _].
    apply orb_false_iff in Hl as [Hl _]. by rewrite Hl. }
  unfold run. split; [|split; [|split; [|split]]].
  - apply (exec_frame selectedReport writesSelection); [|exact Hsel].
    intros s0 [[]| | | |]; try discriminate; reflexivity.
  - apply (exec_frame selectedOptions writesSelection); [|exact Hsel].
    intros s0 [[]| | | |]; try discriminate; reflexivity.
  - apply (exec_frame isProcessing writesSelection); [|exact Hsel].
    intros s0 [[]| | | |]; try discriminate; reflexivity.
  - apply not_true_is_false. intros E. apply existsb_exists in E as (l & Hin & Hl).
    rewrite forallb_forall in H. specialize (H l Hin).
    rewrite Hl in H. by rewrite orb_true_r in H.
  - apply not_true_is_false. intros E. apply existsb_exists in E as (l & Hin & Hl).
    rewrite forallb_forall in H. specialize (H l Hin).
    rewrite Hl in H. by rewrite orb_true_r in H.
Qed.

(** X7: a selection that carries a file supersedes what was there: the
    file, the metadata, the error and both result cells after it do not
    depend on the cells before it; so handling the same selection twice
    is the same as handling it once. *)
Theorem handleFileChange_supersedes
    (env : Env) (s1 s2 : State) (fs : option (list File.t)) (file : File.t) :
  Js.optionalFirst fs = Some file ->
  uploadedFile (run env (handleFileChange fs) s1)
  = uploadedFile (run env (handleFileChange fs) s2)
  /\ fileInfo (run env (handleFileChange fs) s1) = fileInfo (run env (handleFileChange fs) s2)
  /\ error (run env (handleFileChange fs) s1) = error (run env (handleFileChange fs) s2)
  /\ correctedFileUrl (run env (handleFileChange fs) s1)
     = correctedFileUrl (run env (handleFileChange fs) s2)
  /\ amendedSlidesCount (run env (handleFileChange fs) s1)
     = amendedSlidesCount (run env (handleFileChange fs) s2)
  /\ run env (handleFileChange fs) (run env (handleFileChange fs) s1)
     = run env (handleFileChange fs) s1.
Proof.
  intros H. unfold run, handleFileChange, handleFileChange_catch. rewrite H.
  repeat (branch; cbn [trace]); repeat split.
Qed.

Lemma handleFileChange_supersedes_witness :
  error (run Fixtures.corruptEnv (handleFileChange (Some [Fixtures.oldPpt]))
           (run Fixtures.corruptEnv (handleFileChange (Some [Samples.bare])) initialState))
  = error (run Fixtures.corruptEnv (handleFileChange (Some [Fixtures.oldPpt])) initialState).
Proof.
  apply (handleFileChange_supersedes Fixtures.corruptEnv
           (run Fixtures.corruptEnv (handleFileChange (Some [Samples.bare])) initialState)
           initialState (Some [Fixtures.oldPpt]) Fixtures.oldPpt).
  reflexivity.
Defined.

(** X8: after a selection that carries a file, from whatever cells,
    there is metadata exactly when the error is empty, and exactly when
    the name ends in .ppt, or ends in .pptx and the archive loaded. *)
Theorem handleFileChange_outcome
    (env : Env) (s : State) (fs : option (list File.t)) (file : File.t) :
  Js.optionalFirst fs = Some file ->
  (fileInfo (run env (handleFileChange fs) s) <> None
   <-> error (run env (handleFileChange fs) s) = "")
  /\ (fileInfo (run env (handleFileChange fs) s) <> None
      <-> isPpt file = true \/ (isPptx file = true /\ archiveLoads env file = true)).
Proof.
  intros H. unfold run, handleFileChange, handleFileChange_catch, archiveLoads. rewrite H.
  destruct (isPpt file) eqn:Hp; cbn [negb andb].
  - cbn. split; split; try done. intros _. by left.
  - destruct (isPptx file) eqn:Hx; cbn [negb andb trace].
    + destruct (arrayBuffer env file) as [data|err]; cbn [trace].
      * destruct (loadAsync env data) as [zip|err]; cbn.
        -- split; split; try done. intros _. right. done.
        -- split; split; try done. intros [?|[_ ?]]; discriminate.
      * cbn. split; split; try done. intros [?|[_ ?]]; discriminate.
    + cbn. split; split; try done. intros [?|[? _]]; discriminate.
Qed.

Lemma handleFileChange_outcome_witness :
  fileInfo (run Samples.refused (handleFileChange (Some [Fixtures.deckPptx])) initialState)
  <> None
  <-> error (run Samples.refused (handleFileChange (Some [Fixtures.deckPptx])) initialState)
      = "".
Proof.
  apply (handleFileChange_outcome Samples.refused initialState
           (Some [Fixtures.deckPptx]) Fixtures.deckPptx). reflexivity.
Defined.

(** ** Further properties of a start *)

Lemma handleStart_labels (env : Env) (s : State) :
  forallb (fun l => negb (writesInputs l)) (trace env (handleStart s)) = true.
Proof.
  unfold handleStart, handleStart_try, handleStart_result, handleStart_catch,
    handleStart_finally.
  repeat (branch; cbn [trace]); reflexivity.
Qed.

Lemma orElse_nonempty (o : option string) (d : string) :
  d <> "" -> Js.orElse o d <> "".
Proof.
  intros Hd. destruct o as [v|]; cbn; [|exact Hd].
  unfold Js.truthyStr. destruct (String.eqb v "") eqn:E; cbn; [exact Hd|].
  by apply String.eqb_neq in E.
Qed.

(** X9: whatever its outcome, a start never changes what it was given:
    the report, the options, the uploaded file and its metadata are
    the same after it as before. *)
Theorem handleStart_frame (env : Env) (s s0 : State) :
  selectedReport (run env (handleStart s) s0) = selectedReport s0
  /\ selectedOptions (run env (handleStart s) s0) = selectedOptions s0
  /\ uploadedFile (run env (handleStart s) s0) = uploadedFile s0
  /\ fileInfo (run env (handleStart s) s0) = fileInfo s0.
Proof.
  pose proof (handleStart_labels env s) as H. unfold run.
  split; [|split; [|split]].
  - apply (exec_frame selectedReport writesInputs); [|exact H].
    intros s1 [[]| | | |]; try discriminate; reflexivity.
  - apply (exec_frame selectedOptions writesInputs); [|exact H].
    intros s1 [[]| | | |]; try discriminate; reflexivity.
  - apply (exec_frame uploadedFile writesInputs); [|exact H].
    intros s1 [[]| | | |]; try discriminate; reflexivity.
  - apply (exec_frame fileInfo writesInputs); [|exact H].
    intros s1 [[]| | | |]; try discriminate; reflexivity.
Qed.

(** X10: when the request of an accepted start with "language" is
    rejected, or is answered with a success status and parsing its
    body is rejected, the error becomes the message of the rejection,
    or "Error processing the file." when that message is missing or
    empty; it is never empty.  Both result cells are null, the flag is
    cleared and nothing is alerted. *)
Theorem handleStart_rejection
    (env : Env) (s : State) (file : File.t) (err : Js.Error) :
  accepted s = true ->
  includes (selectedOptions s) "language" = true ->
  uploadedFile s = Some file ->
  (fetch env "/api/process-ppt" (startRequest s file) = Js.Rejected err
   \/ exists response,
        fetch env "/api/process-ppt" (startRequest s file) = Js.Resolved response
        /\ ok response = true
        /\ json env response = Js.Rejected err) ->
  error (run env (handleStart s) s)
  = Js.orElse (Js.message err) "Error processing the file."
  /\ error (run env (handleStart s) s) <> ""
  /\ correctedFileUrl (run env (handleStart s) s) = None
  /\ amendedSlidesCount (run env (handleStart s) s) = None
  /\ isProcessing (run env (handleStart s) s) = false
  /\ existsb isAlert (trace env (handleStart s)) = false.
Proof.
  intros Ha Hl Hu Hr.
  destruct (handleStart_accepted s Ha) as (info & file' & _ & Hu' & E).
  assert (file' = file) as -> by congruence.
  assert (Hne : Js.orElse (Js.message err) "Error processing the file." <> "")
    by (apply orElse_nonempty; discriminate).
  unfold run. rewrite E, Hl. unfold handleStart_try. cbn [trace].
  unfold startRequest in Hr. destruct Hr as [Hr|(response & Hr & Hok & Hj)].
  - rewrite Hr. repeat split. exact Hne.
  - rewrite Hr, Hok. cbn [negb trace]. rewrite Hj. repeat split. exact Hne.
Qed.

(** A request rejected with an empty message. *)
Lemma handleStart_rejection_witness :
  error (run Samples.refused (handleStart (Fixtures.filled ["language"]))
           (Fixtures.filled ["language"]))
  = "Error processing the file.".
Proof.
  apply (handleStart_rejection Samples.refused (Fixtures.filled ["language"])
           Fixtures.deckPptx {| Js.message := Some "" |}); try reflexivity.
  left. reflexivity.
Defined.



Lemma handleStart_fetches (env : Env) (s : State) (file : File.t) :
  accepted s = true ->
  includes (selectedOptions s) "language" = true ->
  uploadedFile s = Some file ->
  List.filter isNetworkCall (trace env (handleStart s))
  = [awaitedFetch "/api/process-ppt" (startRequest s file)].
Proof.
  intros Ha Hl Hu.
  destruct (handleStart_accepted s Ha) as (info & file' & _ & Hu' & E).
  assert (file' = file) as -> by congruence.
  rewrite E, Hl.
  unfold handleStart_try, handleStart_result, handleStart_catch, handleStart_finally,
    startRequest.
  cbn [trace List.filter isNetworkCall].
  repeat (branch; cbn [trace List.filter isNetworkCall]); reflexivity.
Qed.

(** X12: an accepted start with "language" sends one request, however
    the environment answers: a POST to "/api/process-ppt" whose body
    holds the uploaded file, the chosen report and the chosen options,
    in the fields "file", "report" and "options". *)
Theorem handleStart_request
    (env : Env) (s : State) (file : File.t) (report : string) :
  accepted s = true ->
  includes (selectedOptions s) "language" = true ->
  uploadedFile s = Some file ->
  selectedReport s = Some report ->
  List.filter isNetworkCall (trace env (handleStart s))
  = [ awaitedFetch "/api/process-ppt"
        {| method := "POST";
           body := [ ("file", FormFile file);
                     ("report", FormText report);
                     ("options", FormJsonStringify (selectedOptions s)) ] |} ].
Proof.
  intros Ha Hl Hu Hr. rewrite (handleStart_fetches env s file Ha Hl Hu).
  unfold startRequest, processFormData. by rewrite Hr.
Qed.

Lemma handleStart_request_witness :
  List.filter isNetworkCall
    (trace Fixtures.corruptEnv (handleStart (Fixtures.filled ["language"; "format"])))
  = [ awaitedFetch "/api/process-ppt"
        {| method := "POST";
           body := [ ("file", FormFile Fixtures.deckPptx);
                     ("report", FormText "Report2");
                     ("options", FormJsonStringify ["language"; "format"]) ] |} ].
Proof.
  apply (handleStart_request Fixtures.corruptEnv (Fixtures.filled ["language"; "format"])
           Fixtures.deckPptx "Report2"); reflexivity.
Defined.

Lemma handleStart_network (env : Env) (s : State) :
  existsb isNetworkCall (trace env (handleStart s))
  = accepted s && includes (selectedOptions s) "language".
Proof.
  unfold accepted, reportChosen, fileReady, optionChosen, handleStart, handleStart_try.
  destruct (Js.truthy (selectedReport s)); [|reflexivity].
  destruct (fileInfo s), (uploadedFile s); try reflexivity.
  cbn [negb andb]. destruct (length (selectedOptions s) =? 0)%nat; [reflexivity|].
  cbn [negb andb trace existsb isNetworkCall orb].
  destruct (includes (selectedOptions s) "language"); reflexivity.
Qed.

(** X13: a start sends a request exactly when all three preconditions
    hold and "language" is among the options; in every other case no
    request leaves the form. *)
Theorem handleStart_sends_iff (env : Env) (s : State) :
  existsb isNetworkCall (trace env (handleStart s)) = true
  <-> reportChosen s = true /\ fileReady s = true /\ optionChosen s = true
      /\ includes (selectedOptions s) "language" = true.
Proof.
  rewrite handleStart_network. unfold accepted. rewrite !andb_true_iff. tauto.
Qed.

Lemma handleStart_not_accepted (s : State) :
  accepted s = false -> exists msg, handleStart s = (setError msg ;; Return).
Proof.
  unfold accepted, reportChosen, fileReady, optionChosen, handleStart.
  destruct (Js.truthy (selectedReport s)); [|by eexists].
  destruct (fileInfo s), (uploadedFile s); try by eexists.
  cbn [negb andb]. destruct (length (selectedOptions s) =? 0)%nat; [by eexists|].
  discriminate.
Qed.



(** X15: choosing the placeholder of the report select (its value is
    the empty string) makes the next start fail with the report
    message whatever else is filled in, and clearing the options makes
    the next start send nothing. *)
Theorem start_after_unselecting (env : Env) (s : State) :
  handleStart (run env (handler s (reportSelect_onChange "")) s)
  = (setError "Please select a report." ;; Return)
  /\ accepted (run env (handler s (optionsSelect_onChange [])) s) = false
  /\ existsb isNetworkCall
       (trace env (handleStart (run env (handler s (optionsSelect_onChange [])) s)))
     = false.
Proof.
  split; [reflexivity|].
  assert (Hacc : accepted (run env (handler s (optionsSelect_onChange [])) s) = false).
  { unfold accepted, optionChosen. cbn. by rewrite andb_false_r. }
  split; [exact Hacc|]. by rewrite handleStart_network, Hacc.
Qed.

(** ** The form at rest *)

Lemma handleFileChange_quiescent (env : Env) (s : State) (fs : option (list File.t)) :
  quiescent s -> quiescent (run env (handleFileChange fs) s).
Proof.
  intros Q. unfold run, handleFileChange, handleFileChange_catch.
  destruct (Js.optionalFirst fs) as [file|]; [|exact Q].
  destruct Q as (Hp & _). unfold quiescent, describes.
  destruct (isPpt file) eqn:Ep; cbn [negb andb].
  - cbn. repeat split; try done.
    intros info [= <-]. exists file. rewrite Ep. done.
  - destruct (isPptx file) eqn:Ex; cbn [negb andb trace].
    + destruct (arrayBuffer env file) as [data|err]; cbn [trace].
      * destruct (loadAsync env data) as [zip|err]; cbn.
        -- repeat split; try done.
           intros info [= <-]. exists file. rewrite Ep. cbn. repeat split. by eexists.
        -- repeat split; done.
      * cbn. repeat split; done.
    + cbn. repeat split; done.
Qed.

Lemma handleStart_quiescent (env : Env) (s : State) :
  quiescent s -> quiescent (run env (handleStart s) s).
Proof.
  intros Q. destruct (accepted s) eqn:Ha.
  - destruct (handleStart_accepted s Ha) as (info & file & Hi & Hu & E).
    destruct Q as (Hp & Hd & _ & _).
    assert (Hd' : forall info0, fileInfo s = Some info0 ->
              exists file0, uploadedFile s = Some file0 /\ describes info0 file0)
      by exact Hd.
    assert (Hi' : fileInfo s <> None) by congruence.
    unfold run. rewrite E.
    unfold handleStart_try, handleStart_result, handleStart_catch, handleStart_finally.
    unfold quiescent.
    repeat (branch; cbn [trace]); cbn;
      (split; [done|]); (split; [exact Hd'|]); (split; [|intros _; exact Hi']);
      try (intros url0 [=]).
    split; [|done]. intros ->.
    match goal with
    | H : Js.truthy ?o = true, H' : ?o = Some "" |- _ => rewrite H' in H; discriminate H
    end.
  - destruct (handleStart_not_accepted s Ha) as (msg & E).
    unfold run. rewrite E. exact Q.
Qed.

Lemma reachable_quiescent (env : Env) (s : State) : reachable env s -> quiescent s.
Proof.
  induction 1 as [|s ev Hs IH Hfires].
  - unfold quiescent. cbn. repeat split; try done.
  - destruct ev as [v|fs|opts|]; cbn [handler].
    + exact IH.
    + by apply handleFileChange_quiescent.
    + exact IH.
    + by apply handleStart_quiescent.
Qed.

Lemma reachable_play (env : Env) (evs : list Event) (s : State) :
  reachable env s -> reachable env (play env evs s).
Proof.
  revert s; induction evs as [|ev evs IH]; intros s Hs; [exact Hs|].
  unfold play. cbn [fold_left]. apply IH.
  destruct (fires (render s) ev) eqn:Hf; [|exact Hs].
  by apply reachable_event.
Qed.

Example session_result :
  downloadLink (render (play Samples.answering Samples.session initialState))
  = Some {| href := "https://x/y.pptx"; download := "corrected_Deck.PPTX" |}.
Proof. vm_compute. reflexivity. Qed.

(** X16: whenever no handler is running (events handled one after the
    other, from the initial form), the processing flag is off, the
    button reads "Start" and every control fires. *)
Theorem reachable_idle (env : Env) (s : State) :
  reachable env s ->
  isProcessing s = false
  /\ startButton_label (render s) = "Start"
  /\ forall ev, fires (render s) ev = true.
Proof.
  intros Hs. apply reachable_quiescent in Hs as (Hp & _).
  split; [exact Hp|]. split; [cbn; by rewrite Hp|].
  intros [v|fs|opts|]; cbn; by rewrite ?Hp.
Qed.

Lemma reachable_idle_witness :
  isProcessing (play Samples.answering Samples.session initialState) = false.
Proof.
  apply (reachable_idle Samples.answering).
  apply reachable_play, reachable_initial.
Defined.

(** X17: whenever no handler is running, the metadata on display is
    that of the uploaded file: its name and its size in KB; for a .ppt
    name the type "ppt" and the count "Unknown", otherwise the file's
    declared type and a number.  The slide count is never null. *)
Theorem reachable_fileInfo (env : Env) (s : State) (info : FileInfo.t) :
  reachable env s ->
  fileInfo s = Some info ->
  exists file,
    uploadedFile s = Some file
    /\ describes info file
    /\ FileInfo.slideCount info <> SlideNull.
Proof.
  intros Hs Hi. apply reachable_quiescent in Hs as (_ & Hd & _).
  destruct (Hd info Hi) as (file & Hu & D). exists file. split; [exact Hu|].
  split; [exact D|]. destruct D as (_ & _ & D).
  destruct (isPpt file); [destruct D as [_ ->]|destruct D as [_ [n ->]]]; discriminate.
Qed.

Lemma reachable_fileInfo_witness :
  exists file,
    uploadedFile (play Samples.answering Samples.session initialState) = Some file
    /\ describes
         {| FileInfo.name := "Deck.PPTX"; FileInfo.type := File.type Fixtures.deckPptx;
            FileInfo.size := "2.00 KB"; FileInfo.slideCount := SlideNumber 3 |} file
    /\ FileInfo.slideCount
         {| FileInfo.name := "Deck.PPTX"; FileInfo.type := File.type Fixtures.deckPptx;
            FileInfo.size := "2.00 KB"; FileInfo.slideCount := SlideNumber 3 |}
       <> SlideNull.
Proof.
  apply (reachable_fileInfo Samples.answering
           (play Samples.answering Samples.session initialState)).
  - apply reachable_play, reachable_initial.
  - vm_compute. reflexivity.
Defined.

(** X18: whenever no handler is running and a download link is on
    display, its address is the non-empty reference, its suggested
    name is "corrected_" followed by the name of the uploaded file
    (never "corrected_undefined"), and the amended count is on display
    with it. *)
Theorem reachable_download (env : Env) (s : State) (a : Anchor) :
  reachable env s ->
  downloadLink (render s) = Some a ->
  exists file,
    uploadedFile s = Some file
    /\ download a = "corrected_" ++ File.name file
    /\ correctedFileUrl s = Some (href a)
    /\ href a <> ""
    /\ amendedSlides (render s) <> None.
Proof.
  intros Hs Ha. apply reachable_quiescent in Hs as (_ & Hd & Hr & Hc).
  cbn in Ha. destruct (correctedFileUrl s) as [url|] eqn:Hu; [|discriminate].
  destruct (Hr url eq_refl) as [Hne Hcount].
  rewrite (truthyStr_ne url Hne) in Ha.
  destruct (fileInfo s) as [info|] eqn:Hi; [|by destruct (Hc Hcount)].
  destruct (Hd info eq_refl) as (file & Hf & Hn & _).
  injection Ha as <-. exists file. cbn. rewrite Hn.
  repeat split; try done.
  destruct (amendedSlidesCount s); done.
Qed.

Lemma reachable_download_witness :
  exists file,
    uploadedFile (play Samples.answering Samples.session initialState) = Some file
    /\ download {| href := "https://x/y.pptx"; download := "corrected_Deck.PPTX" |}
       = "corrected_" ++ File.name file
    /\ correctedFileUrl (play Samples.answering Samples.session initialState)
       = Some (href {| href := "https://x/y.pptx"; download := "corrected_Deck.PPTX" |})
    /\ href {| href := "https://x/y.pptx"; download := "corrected_Deck.PPTX" |} <> ""
    /\ amendedSlides (render (play Samples.answering Samples.session initialState)) <> None.
Proof.
  apply (reachable_download Samples.answering
           (play Samples.answering Samples.session initialState)).
  - apply reachable_play, reachable_initial.
  - vm_compute. reflexivity.
Defined.

(** ** Which entries count as slides *)

Lemma append_cons (c : ascii) (q r : string) : String c q ++ r = String c (q ++ r).
Proof. reflexivity. Qed.

Lemma length_append (x r : string) :
  String.length (x ++ r) = String.length x + String.length r.
Proof.
  induction x as [|c x IH]; [reflexivity|].
  rewrite append_cons. cbn [String.length]. by rewrite IH.
Qed.

Lemma dropStr_append (x r : string) (n : nat) :
  Js.dropStr (String.length x + n) (x ++ r) = Js.dropStr n r.
Proof.
  induction x as [|c x IH]; [reflexivity|].
  rewrite append_cons. cbn [String.length Nat.add Js.dropStr]. exact IH.
Qed.

Lemma endsWith_append (x r p : string) :
  String.length p <= String.length r ->
  Js.endsWith (x ++ r) p = Js.endsWith r p.
Proof.
  intros Hle. unfold Js.endsWith. rewrite length_append.
  replace (String.length x + String.length r - String.length p)
    with (String.length x + (String.length r - String.length p)) by lia.
  rewrite dropStr_append.
  destruct (Nat.leb_spec (String.length p) (String.length r)); [|lia].
  destruct (Nat.leb_spec (String.length p) (String.length x + String.length r)); [|lia].
  reflexivity.
Qed.

Lemma endsWith_append_self (k p : string) : Js.endsWith (k ++ p) p = true.
Proof.
  unfold Js.endsWith. rewrite length_append.
  replace (String.length k + String.length p - String.length p)
    with (String.length k + 0) by lia.
  rewrite dropStr_append. cbn [Js.dropStr]. rewrite String.eqb_refl.
  destruct (Nat.leb_spec (String.length p) (String.length k + String.length p)); [|lia].
  reflexivity.
Qed.

Lemma prefix_append (p r : string) : String.prefix p (p ++ r) = true.
Proof.
  induction p as [|c p IH]; [by destruct r|].
  rewrite append_cons. cbn [String.prefix].
  destruct (ascii_dec c c); [exact IH|contradiction].
Qed.

Lemma prefix_inv (p s : string) : String.prefix p s = true -> exists r, s = p ++ r.
Proof.
  revert s; induction p as [|c p IH]; intros s H.
  - by exists s.
  - destruct s as [|d s]; [discriminate|]. cbn [String.prefix] in H.
    destruct (ascii_dec c d) as [->|]; [|discriminate].
    destruct (IH s H) as [r ->]. by exists r.
Qed.

(** X19: an entry counts as a slide exactly when its path is
    "ppt/slides/slide", then anything at all, then ".xml": the part in
    between is not required to be a number, and may be empty or
    contain further slashes. *)
Theorem isSlideFile_iff (filename : string) :
  isSlideFile filename = true
  <-> exists k, filename = "ppt/slides/slide" ++ k ++ ".xml".
Proof.
  unfold isSlideFile, Js.startsWith. rewrite andb_true_iff. split.
  - intros [Hp He]. apply prefix_inv in Hp as [r ->].
    destruct r as [|a [|b [|c [|d r]]]];
      try (vm_compute in He; discriminate He).
    rewrite endsWith_append in He by (cbn; lia).
    apply endsWith_suffix in He as [k Hk]. exists k. by rewrite Hk.
  - intros [k ->]. split; [apply prefix_append|].
    rewrite endsWith_append by (rewrite length_append; cbn; lia).
    apply endsWith_append_self.
Qed.

Example isSlideFile_samples :
  map isSlideFile
    [ "ppt/slides/slide1.xml"; "ppt/slides/slide.xml"; "ppt/slides/slideshow/notes.xml";
      "ppt/slides/_rels/slide1.xml.rels"; "ppt/slideLayouts/slideLayout1.xml";
      "PPT/slides/slide1.xml"; "ppt/slides/slide1.XML"; "ppt/slides/slide" ]
  = [ true; true; true; false; false; false; false; false ].
Proof. reflexivity. Qed.

(** ** Selections that overlap *)

(** X20: the file input stays enabled while a .pptx is being read.
    When a second selection, of a file that intake refuses for its
    extension, is handled during that read and the read then ends
    well, the form rests with the refused file as the uploaded one and
    the metadata of the first file, without any error; a start with a
    report and "language" then sends the refused file. *)
Theorem overlapped_selection
    (env : Env) (s : State) (first second : option (list File.t))
    (a b : File.t) (data : list Byte.byte) (zip : JSZip) :
  isProcessing s = false ->
  Js.optionalFirst first = Some a ->
  isPptx a = true ->
  arrayBuffer env a = Js.Resolved data ->
  loadAsync env data = Js.Resolved zip ->
  Js.optionalFirst second = Some b ->
  passedExtension b = false ->
  fires (render (suspended (handleFileChange first) s)) (fileInput_onChange second) = true
  /\ uploadedFile (overlapped env first second s) = Some b
  /\ (exists info, fileInfo (overlapped env first second s) = Some info
                   /\ FileInfo.name info = File.name a)
  /\ error (overlapped env first second s) = ""
  /\ (reportChosen s = true ->
      includes (selectedOptions s) "language" = true ->
      List.filter isNetworkCall (trace env (handleStart (overlapped env first second s)))
      = [awaitedFetch "/api/process-ppt"
           (startRequest (overlapped env first second s) b)]).
Proof.
  intros Hp Ha Hx Hb Hz Hsec Hext.
  unfold passedExtension in Hext. apply orb_false_iff in Hext as [Hbp Hbx].
  assert (Hadv : exists rest,
            advance (handleFileChange first)
            = ([setUploadedFile (Some a); setCorrectedFileUrl None;
                setAmendedSlidesCount None], rest)
            /\ trace env rest
               = [ awaitedArrayBuffer a; awaitedLoadAsync data;
                   did (setFileInfo (Some
                     {| FileInfo.name := File.name a; FileInfo.type := File.type a;
                        FileInfo.size := sizeLabel a;
                        FileInfo.slideCount :=
                          SlideNumber (length (List.filter isSlideFile
                                                 (Object_keys (files zip)))) |}));
                   did (setError "") ]).
  { unfold handleFileChange. rewrite Ha, (isPptx_not_isPpt a Hx), Hx.
    cbn [negb andb advance]. eexists. split; [reflexivity|].
    cbn [trace]. rewrite Hb. cbn [trace]. rewrite Hz. reflexivity. }
  destruct Hadv as (rest & Hadv & Htr).
  assert (Hsecond : trace env (handleFileChange second)
                    = [ did (setUploadedFile (Some b)); did (setCorrectedFileUrl None);
                        did (setAmendedSlidesCount None);
                        did (setError "Only .ppt or .pptx files are allowed.");
                        did (setFileInfo None) ]).
  { unfold handleFileChange. rewrite Hsec, Hbp, Hbx. reflexivity. }
  unfold overlapped, suspended, run. rewrite Hadv. cbn [fst snd].
  rewrite Htr, Hsecond.
  cbn [fst fold_left exec effect apply render fires fileInput_disabled isProcessing
       uploadedFile fileInfo error].
  split; [by rewrite Hp|]. split; [reflexivity|]. split; [by eexists|].
  split; [reflexivity|].
  intros Hr Hl. apply handleStart_fetches; [|exact Hl|reflexivity].
  unfold accepted, reportChosen, fileReady, optionChosen in *. cbn.
  rewrite Hr. cbn. unfold includes in Hl.
  destruct (selectedOptions s); [discriminate|reflexivity].
Qed.

Lemma overlapped_selection_witness :
  uploadedFile
    (overlapped Samples.answering (Some [Fixtures.deckPptx]) (Some [Fixtures.notes])
       (Fixtures.filled ["language"]))
  = Some Fixtures.notes
  /\ List.filter isNetworkCall
       (trace Samples.answering
          (handleStart
             (overlapped Samples.answering (Some [Fixtures.deckPptx])
                (Some [Fixtures.notes]) (Fixtures.filled ["language"]))))
     = [awaitedFetch "/api/process-ppt"
          (startRequest
             (overlapped Samples.answering (Some [Fixtures.deckPptx])
                (Some [Fixtures.notes]) (Fixtures.filled ["language"]))
             Fixtures.notes)].
Proof.
  pose proof (overlapped_selection Samples.answering (Fixtures.filled ["language"])
    (Some [Fixtures.deckPptx]) (Some [Fixtures.notes]) Fixtures.deckPptx Fixtures.notes
    Fixtures.deckBytes Fixtures.deckZip
    eq_refl eq_refl eq_refl eq_refl eq_refl eq_refl eq_refl) as (_ & Hu & _ & _ & Hs).
  split; [exact Hu | exact (Hs eq_refl eq_refl)].
Defined.

(** ** A start in flight, and the options it reads *)

(** X21: while the request of an accepted start with "language" is
    pending, the button reads "Processing..." and the start button, the
    file input and the options select fire nothing, so a second click
    is dropped and no second request can be started; the error and both
    result cells are already cleared. *)
Theorem handleStart_in_flight (env : Env) (s : State) :
  accepted s = true ->
  includes (selectedOptions s) "language" = true ->
  startButton_label (render (suspended (handleStart s) s)) = "Processing..."
  /\ fires (render (suspended (handleStart s) s)) startButton_onClick = false
  /\ (forall fs, fires (render (suspended (handleStart s) s)) (fileInput_onChange fs) = false)
  /\ (forall opts,
        fires (render (suspended (handleStart s) s)) (optionsSelect_onChange opts) = false)
  /\ play env [startButton_onClick] (suspended (handleStart s) s)
     = suspended (handleStart s) s
  /\ error (suspended (handleStart s) s) = ""
  /\ correctedFileUrl (suspended (handleStart s) s) = None
  /\ amendedSlidesCount (suspended (handleStart s) s) = None.
Proof.
  intros Ha Hl. destruct (handleStart_accepted s Ha) as (info & file & _ & _ & E).
  unfold suspended, play. rewrite E, Hl. repeat split.
Qed.

Lemma handleStart_in_flight_witness :
  play Samples.answering [startButton_onClick]
    (suspended (handleStart (Fixtures.filled ["language"])) (Fixtures.filled ["language"]))
  = suspended (handleStart (Fixtures.filled ["language"])) (Fixtures.filled ["language"]).
Proof.
  apply (handleStart_in_flight Samples.answering (Fixtures.filled ["language"]));
    reflexivity.
Defined.

Lemma includes_In (xs : list string) (x : string) :
  includes xs x = true <-> In x xs.
Proof.
  unfold includes. rewrite existsb_exists. split.
  - intros (y & Hy & E). apply String.eqb_eq in E. by subst.
  - intros H. exists x. split; [exact H|apply String.eqb_refl].
Qed.

(** X22: with a report chosen and a file accepted, the start that
    follows a change of the options sends a request exactly when one of
    the chosen options has the value "language" (its label and the
    other options do not matter). *)
Theorem start_after_options (env : Env) (s : State) (opts : list SelectOption) :
  reportChosen s = true ->
  fileReady s = true ->
  existsb isNetworkCall
    (trace env (handleStart (run env (handler s (optionsSelect_onChange opts)) s))) = true
  <-> exists o, In o opts /\ value o = "language".
Proof.
  intros Hr Hf. rewrite handleStart_network.
  unfold accepted, reportChosen, fileReady, optionChosen in *.
  cbn [handler run trace exec fold_left effect apply selectedReport fileInfo uploadedFile
       selectedOptions].
  rewrite Hr, Hf. cbn [andb]. rewrite andb_true_iff, includes_In, in_map_iff. split.
  - intros [_ (o & Ho & Hin)]. by exists o.
  - intros (o & Hin & Ho). split; [|by exists o].
    destruct opts; [destruct Hin|reflexivity].
Qed.

Lemma start_after_options_witness :
  existsb isNetworkCall
    (trace Samples.answering
       (handleStart (run Samples.answering
                       (handler (Fixtures.filled [])
                          (optionsSelect_onChange
                             [ {| value := "narrative"; label := "Narrative" |};
                               {| value := "language"; label := "Language" |} ]))
                       (Fixtures.filled [])))) = true
  <-> exists o, In o [ {| value := "narrative"; label := "Narrative" |};
                       {| value := "language"; label := "Language" |} ]
                /\ value o = "language".
Proof.
  apply (start_after_options Samples.answering (Fixtures.filled [])); reflexivity.
Defined.
